(** * DSFMLC/Graphics/CreateRenderStates.hpp

    A shallow embedding of [createRenderStates], the inline function that
    converts the flat arguments sent by the D side of DSFML into an
    [sf::RenderStates] value, and the properties of it that the
    specification states.

    The function reads memory through two of its pointer parameters and
    calls one collaborator, [createTransform], on the third.  It is
    embedded in a small state-and-failure monad over an object memory, so
    that "reads only", "leaves memory unchanged" and "returns" are
    theorems about the embedding and not properties of its type. *)

From Stdlib Require Import ZArith List Bool Lia.
From stdpp Require Import base option list gmap.

Local Open Scope Z_scope.

(** ** Memory: objects, pointers *)

(** An allocated object is identified by its block. *)
Definition block := positive.

(** A pointer value.  [Obj b] is the address of the complete object in
    block [b]; [ThisOf b] is the address of the member [This] of the
    object in block [b], that is [&p->This] for [p = Obj b]. *)
Inductive pointer : Type :=
| NULL
| Obj (b : block)
| ThisOf (b : block).

#[global] Instance pointer_eq_dec : EqDecision pointer.
Proof. solve_decision. Defined.


(** A C++ [float], as its IEEE-754 binary32 bit pattern.  The function
    never computes with floats: it hands the buffer over. *)
Definition float := Z.
Definition float_0 : float := 0.            (* 0.0f *)
Definition float_1 : float := 1065353216.    (* 1.0f = 0x3F800000 *)

(** Modelled from the spec: the declarations of [sfTexture] and
    [sfShader], in DSFMLC/Graphics/TextureStruct.h and
    DSFMLC/Graphics/ShaderStruct.h, are missing from the sources.  The spec describes them as "two external resource-wrapper types
    exposing an internal handle field"; the uses at lines 55 and 56 of
    CreateRenderStates.hpp fix the type of that field: [texture->This] is
    assigned to a [const sf::Texture*], so [sfTexture::This] holds a
    pointer, and [&shader->This] is assigned to a [const sf::Shader*], so
    [sfShader::This] is an [sf::Shader] object embedded in the wrapper.
    Only the member the function touches is modelled. *)
Inductive object : Type :=
| sfTexture (This : pointer)   (* struct sfTexture { sf::Texture* This; ... } *)
| sfShader                     (* struct sfShader  { sf::Shader   This; ... } *)
| floats (fs : list float)     (* an array of float *)
| resource.                    (* any other object, e.g. an sf::Texture *)

Abbreviation mem := (gmap block object).



(** ** Computations over memory *)

(** A computation takes the memory and either returns a value and the
    memory it leaves, or has no defined outcome ([None]: an access through
    a null or dangling pointer).  There is no other outcome: the function
    has no error code and throws nothing. *)
Definition M (A : Type) : Type := mem -> option (A * mem).

Definition ret {A : Type} (a : A) : M A := fun m => Some (a, m).

Definition bind {A B : Type} (c : M A) (k : A -> M B) : M B :=
  fun m => match c m with
           | Some (a, m') => k a m'
           | None => None
           end.

Definition undefined {A : Type} : M A := fun _ => None.

Notation "'do' x <~ c ; k" := (bind c (fun x => k))
  (at level 10, x name, c at level 100, k at level 200).

(** The test [p ? ... : ...] on a pointer. *)
Definition to_bool (p : pointer) : bool :=
  match p with
  | NULL => false
  | _ => true
  end.

(** [texture->This]: reads the member [This] of the [sfTexture] that the
    pointer designates. *)
Definition sfTexture_This (texture : pointer) : M pointer :=
  fun m => match texture with
           | Obj b => match m !! b with
                      | Some (sfTexture This) => Some (This, m)
                      | _ => None
                      end
           | _ => None
           end.

(** [&shader->This]: the address of the member [This] of the [sfShader]
    that the pointer designates.  It is an address computation, memory is
    not accessed. *)
Definition addr_sfShader_This (shader : pointer) : M pointer :=
  match shader with
  | Obj b => ret (ThisOf b)
  | _ => undefined
  end.

(** ** The types of SFML that the function fills in *)

(** [DInt] is the 32-bit signed integer of the C interface. *)
Definition DInt := Z.
Definition DInt_range (v : DInt) : Prop := - 2 ^ 31 <= v < 2 ^ 31.

(** The values an enumeration without fixed underlying type can hold are
    [0 .. bmax], where [bmax] is the least number of the form [2^M - 1]
    that is at least the largest enumerator (all enumerators here are
    non-negative). *)
Definition enum_bmax (emax : Z) : Z := 2 ^ Z.log2_up (emax + 1) - 1.

(** [static_cast<E>(v)] from an integer to such an enumeration: the value
    is unchanged when it is one the enumeration can hold, and is
    unspecified otherwise; [unspecified] stands for what the
    implementation yields then. *)
Definition static_cast_enum (emax : Z) (unspecified : Z -> Z) (v : DInt) : Z :=
  if (0 <=? v) && (v <=? enum_bmax emax) then v else unspecified v.

Module BlendMode.

(** [enum Factor] of [sf::BlendMode], in declaration order, as
    SFML/Graphics/BlendMode.hpp declares it.  The header is included at
    line 32 and belongs to SFML (version 2.4 for this binding), not to
    the repository; the example of the spec names [Zero] for 0 and [One]
    for 1. *)
Inductive Factor_enumerator : Type :=
| Zero | One
| SrcColor | OneMinusSrcColor
| DstColor | OneMinusDstColor
| SrcAlpha | OneMinusSrcAlpha
| DstAlpha | OneMinusDstAlpha.

(** [enum Equation] of [sf::BlendMode], in declaration order, from the
    same header; the example of the spec names [Add] for 0. *)
Inductive Equation_enumerator : Type :=
| Add | Subtract | ReverseSubtract.

(** An object of enumeration type holds an integer value. *)
Definition Factor := Z.
Definition Equation := Z.

(** The enumeration tables: the value of each enumerator.  No
    enumerator has an initializer, so they count from 0. *)
Definition Factor_value (f : Factor_enumerator) : Factor :=
  match f with
  | Zero => 0 | One => 1
  | SrcColor => 2 | OneMinusSrcColor => 3
  | DstColor => 4 | OneMinusDstColor => 5
  | SrcAlpha => 6 | OneMinusSrcAlpha => 7
  | DstAlpha => 8 | OneMinusDstAlpha => 9
  end.

Definition Equation_value (e : Equation_enumerator) : Equation :=
  match e with
  | Add => 0 | Subtract => 1 | ReverseSubtract => 2
  end.

(** The tables read the other way: the enumerator a value names. *)
Definition Factor_of_value (v : Factor) : option Factor_enumerator :=
  match v with
  | 0 => Some Zero | 1 => Some One
  | 2 => Some SrcColor | 3 => Some OneMinusSrcColor
  | 4 => Some DstColor | 5 => Some OneMinusDstColor
  | 6 => Some SrcAlpha | 7 => Some OneMinusSrcAlpha
  | 8 => Some DstAlpha | 9 => Some OneMinusDstAlpha
  | _ => None
  end.

Definition Equation_of_value (v : Equation) : option Equation_enumerator :=
  match v with
  | 0 => Some Add | 1 => Some Subtract | 2 => Some ReverseSubtract
  | _ => None
  end.

(** A code is valid when it is the value of an enumerator. *)
Definition valid_Factor (v : Z) : bool := (0 <=? v) && (v <=? 9).
Definition valid_Equation (v : Z) : bool := (0 <=? v) && (v <=? 2).

(** [struct sf::BlendMode]. *)
Record t : Type := make {
  colorSrcFactor : Factor;
  colorDstFactor : Factor;
  colorEquation : Equation;
  alphaSrcFactor : Factor;
  alphaDstFactor : Factor;
  alphaEquation : Equation
}.

(** Assignment to one member. *)
Definition set_colorSrcFactor (v : Factor) (b : t) : t :=
  make v (colorDstFactor b) (colorEquation b)
       (alphaSrcFactor b) (alphaDstFactor b) (alphaEquation b).
Definition set_colorDstFactor (v : Factor) (b : t) : t :=
  make (colorSrcFactor b) v (colorEquation b)
       (alphaSrcFactor b) (alphaDstFactor b) (alphaEquation b).
Definition set_colorEquation (v : Equation) (b : t) : t :=
  make (colorSrcFactor b) (colorDstFactor b) v
       (alphaSrcFactor b) (alphaDstFactor b) (alphaEquation b).
Definition set_alphaSrcFactor (v : Factor) (b : t) : t :=
  make (colorSrcFactor b) (colorDstFactor b) (colorEquation b)
       v (alphaDstFactor b) (alphaEquation b).
Definition set_alphaDstFactor (v : Factor) (b : t) : t :=
  make (colorSrcFactor b) (colorDstFactor b) (colorEquation b)
       (alphaSrcFactor b) v (alphaEquation b).
Definition set_alphaEquation (v : Equation) (b : t) : t :=
  make (colorSrcFactor b) (colorDstFactor b) (colorEquation b)
       (alphaSrcFactor b) (alphaDstFactor b) v.

(** The constructors [BlendMode(src, dst, eq = Add)] and
    [BlendMode(csrc, cdst, ceq, asrc, adst, aeq)], from enumerators. *)
Definition of_enumerators
    (cs cd : Factor_enumerator) (ce : Equation_enumerator)
    (as_ ad : Factor_enumerator) (ae : Equation_enumerator) : t :=
  make (Factor_value cs) (Factor_value cd) (Equation_value ce)
       (Factor_value as_) (Factor_value ad) (Equation_value ae).

Definition of_factors (src dst : Factor_enumerator) : t :=
  of_enumerators src dst Add src dst Add.

(** The predefined modes of SFML/Graphics/BlendMode.cpp that the
    statements refer to.  [BlendNone], documented as "overwrite dest with
    source", is the replace mode.  [BlendAlpha] is the mode a [BlendMode]
    and a [RenderStates] are constructed with by default. *)
Definition BlendAlpha : t :=
  of_enumerators SrcAlpha OneMinusSrcAlpha Add One OneMinusSrcAlpha Add.
Definition BlendNone : t := of_factors One Zero.

(** [BlendMode::BlendMode()]. *)
Definition ctor : t := BlendAlpha.

(** [static_cast<sf::BlendMode::Factor>] and
    [static_cast<sf::BlendMode::Equation>]. *)
Definition static_cast_Factor := static_cast_enum (Factor_value OneMinusDstAlpha).
Definition static_cast_Equation := static_cast_enum (Equation_value ReverseSubtract).

End BlendMode.

Module RenderStates.

(** [class sf::RenderStates], over the type of [sf::Transform]. *)
Record t (Transform : Type) : Type := make {
  blendMode : BlendMode.t;
  transform : Transform;
  texture : pointer;     (* const sf::Texture* *)
  shader : pointer       (* const sf::Shader* *)
}.
Arguments make {Transform} _ _ _ _.
Arguments blendMode {Transform} _.
Arguments transform {Transform} _.
Arguments texture {Transform} _.
Arguments shader {Transform} _.

Section Members.
Context {Transform : Type}.

(** Assignment to one member. *)
Definition set_blendMode (v : BlendMode.t) (s : t Transform) : t Transform :=
  make v (transform s) (texture s) (shader s).
Definition set_transform (v : Transform) (s : t Transform) : t Transform :=
  make (blendMode s) v (texture s) (shader s).
Definition set_texture (v : pointer) (s : t Transform) : t Transform :=
  make (blendMode s) (transform s) v (shader s).
Definition set_shader (v : pointer) (s : t Transform) : t Transform :=
  make (blendMode s) (transform s) (texture s) v.

(** [RenderStates::RenderStates()]: alpha blending, the default
    transform, no texture, no shader. *)
Definition ctor (Transform_ctor : Transform) : t Transform :=
  make BlendMode.BlendAlpha Transform_ctor NULL NULL.
End Members.

End RenderStates.

(** ** createRenderStates *)

Section CreateRenderStates.

(** What the function takes from elsewhere: the type [sf::Transform]
    with its default constructor, the collaborator [createTransform] of
    DSFMLC/Graphics/CreateTransform.hpp, which receives the buffer
    pointer and may do anything a computation can, and what the
    implementation yields when an integer that an enumeration cannot
    hold is cast to it. *)
Variable Transform : Type.
Variable Transform_ctor : Transform.
Variable createTransform : pointer -> M Transform.
Variable unspecified_Factor : Z -> Z.
Variable unspecified_Equation : Z -> Z.

Definition cast_Factor : DInt -> BlendMode.Factor :=
  BlendMode.static_cast_Factor unspecified_Factor.
Definition cast_Equation : DInt -> BlendMode.Equation :=
  BlendMode.static_cast_Equation unspecified_Equation.

(** Lines 39 to 59, statement by statement. *)
Definition createRenderStates
    (colorSrcFactor colorDstFactor colorEquation : DInt)
    (alphaSrcFactor alphaDstFactor alphaEquation : DInt)
    (transform texture shader : pointer) : M (RenderStates.t Transform) :=
  let sfmlStates := RenderStates.ctor Transform_ctor in
  let blendMode := BlendMode.ctor in
  let blendMode := BlendMode.set_colorSrcFactor (cast_Factor colorSrcFactor) blendMode in
  let blendMode := BlendMode.set_colorDstFactor (cast_Factor colorDstFactor) blendMode in
  let blendMode := BlendMode.set_colorEquation (cast_Equation colorEquation) blendMode in
  let blendMode := BlendMode.set_alphaSrcFactor (cast_Factor alphaSrcFactor) blendMode in
  let blendMode := BlendMode.set_alphaDstFactor (cast_Factor alphaDstFactor) blendMode in
  let blendMode := BlendMode.set_alphaEquation (cast_Equation alphaEquation) blendMode in
  let sfmlStates := RenderStates.set_blendMode blendMode sfmlStates in
  do t <~ createTransform transform;
  let sfmlStates := RenderStates.set_transform t sfmlStates in
  do tex <~ (if to_bool texture then sfTexture_This texture else ret NULL);
  let sfmlStates := RenderStates.set_texture tex sfmlStates in
  do sh <~ (if to_bool shader then addr_sfShader_This shader else ret NULL);
  let sfmlStates := RenderStates.set_shader sh sfmlStates in
  ret sfmlStates.

End CreateRenderStates.

Arguments createRenderStates {Transform} _ _ _ _ _ _ _ _ _ _ _ _ _ _.
Arguments cast_Factor _ _ /.
Arguments cast_Equation _ _ /.

(** ** What the statements below speak of *)

(** The float array a buffer pointer designates. *)
Definition buffer (m : mem) (p : pointer) : option (list float) :=
  match p with
  | Obj b => match m !! b with
             | Some (floats fs) => Some fs
             | _ => None
             end
  | _ => None
  end.

(** The 4x4 identity matrix, as sixteen floats (the same sequence by rows
    and by columns). *)
Definition identity_matrix : list float :=
  [ float_1; float_0; float_0; float_0;
    float_0; float_1; float_0; float_0;
    float_0; float_0; float_1; float_0;
    float_0; float_0; float_0; float_1 ].

(** The texture argument can be read: it is null, or it points to a live
    [sfTexture]. *)
Definition readable_texture (m : mem) (texture : pointer) : bool :=
  match texture with
  | NULL => true
  | Obj b => match m !! b with Some (sfTexture _) => true | _ => false end
  | ThisOf _ => false
  end.

(** The shader argument is null or the address of a wrapper object. *)
Definition wrapper_pointer (shader : pointer) : bool :=
  match shader with
  | ThisOf _ => false
  | _ => true
  end.

(** The value of [texture ? texture->This : NULL] in memory [m], when the
    expression has one. *)
Definition texture_member (m : mem) (texture : pointer) : option pointer :=
  match texture with
  | NULL => Some NULL
  | Obj b => match m !! b with Some (sfTexture This) => Some This | _ => None end
  | ThisOf _ => None
  end.

(** The value of [shader ? &shader->This : NULL], when the expression has
    one. *)
Definition shader_member (shader : pointer) : option pointer :=
  match shader with
  | NULL => Some NULL
  | Obj b => Some (ThisOf b)
  | ThisOf _ => None
  end.

(** A member of enumeration type holds what the enumeration table gives
    for [code]: the same number, which is the value of an enumerator. *)
Definition holds_Factor (v : BlendMode.Factor) (code : Z) : Prop :=
  v = code /\
  exists f, BlendMode.Factor_of_value v = Some f /\ BlendMode.Factor_value f = code.

Definition holds_Equation (v : BlendMode.Equation) (code : Z) : Prop :=
  v = code /\
  exists e, BlendMode.Equation_of_value v = Some e /\ BlendMode.Equation_value e = code.

(** What a blend mode does to a pixel, after the documentation of
    [sf::BlendMode]: a factor is a multiplier taken from the source or the
    destination pixel, an equation combines the two products.  One colour
    channel and the alpha channel are kept, on a scale where 1 is full
    intensity; the integers are enough to tell the modes apart at the
    extremes 0 and 1. *)
Module Blending.
Import BlendMode.

Record pixel : Type := { color : Z; alpha : Z }.

Definition factor (f : Factor_enumerator) (part : pixel -> Z) (src dst : pixel) : Z :=
  match f with
  | Zero => 0
  | One => 1
  | SrcColor => part src
  | OneMinusSrcColor => 1 - part src
  | DstColor => part dst
  | OneMinusDstColor => 1 - part dst
  | SrcAlpha => alpha src
  | OneMinusSrcAlpha => 1 - alpha src
  | DstAlpha => alpha dst
  | OneMinusDstAlpha => 1 - alpha dst
  end.

Definition equation (e : Equation_enumerator) (s d : Z) : Z :=
  match e with
  | Add => s + d
  | Subtract => s - d
  | ReverseSubtract => d - s
  end.

(** One channel; no result when a member names no enumerator. *)
Definition channel (sf df : Factor) (eq : Equation)
    (part : pixel -> Z) (src dst : pixel) : option Z :=
  match Factor_of_value sf, Factor_of_value df, Equation_of_value eq with
  | Some fs, Some fd, Some e =>
      Some (equation e (part src * factor fs part src dst)
                       (part dst * factor fd part src dst))
  | _, _, _ => None
  end.

Definition apply (b : BlendMode.t) (src dst : pixel) : option pixel :=
  match channel (colorSrcFactor b) (colorDstFactor b) (colorEquation b) color src dst,
        channel (alphaSrcFactor b) (alphaDstFactor b) (alphaEquation b) alpha src dst with
  | Some c, Some a => Some {| color := c; alpha := a |}
  | _, _ => None
  end.

(** A mode replaces when the result is the source pixel, whatever the
    destination holds. *)
Definition replaces (b : BlendMode.t) : Prop :=
  forall src dst, apply b src dst = Some src.

(** A mode keeps the destination when the source pixel has no effect. *)
Definition keeps_destination (b : BlendMode.t) : Prop :=
  forall src dst, apply b src dst = Some dst.
End Blending.

Module SpecModel.

(** Modelled from the spec: [sf::Transform] is the value the collaborator
    makes "from a fixed-size sequence of floating-point values", "a
    fixed 4x4 float matrix"; it is taken to be that matrix, sixteen
    floats. *)
Definition Transform : Type := list float.

(** Modelled from the spec: the identity transform, the transform of the
    identity matrix. *)
Definition Identity : Transform := identity_matrix.

(** Modelled from the spec: [createTransform], of
    DSFMLC/Graphics/CreateTransform.hpp, is missing from the sources.
    The spec describes it as "a transform-construction function taking a
    float buffer and returning a transform value", the buffer being a
    "16-element float array".  It reads the sixteen floats the pointer
    designates and returns them as the transform.  Nothing is defined for
    a null pointer or a shorter array. *)
Definition createTransform (matrix : pointer) : M Transform :=
  fun m => match buffer m matrix with
           | Some fs => if (16 <=? length fs)%nat
                        then Some (take 16 fs, m)
                        else None
           | None => None
           end.

(** An implementation that keeps the integer when the enumeration
    cannot hold it, as compilers do that store the enumeration in an
    [int]. *)
Definition unspecified : Z -> Z := fun v => v.

(** [createRenderStates] with these collaborators. *)
Definition createRenderStates :=
  createRenderStates Identity createTransform unspecified unspecified.

(** A memory to run the function in: the identity matrix in block 1, an
    [sf::Texture] in block 2, its wrapper in block 3, a shader wrapper
    in block 4, a three-element array in block 5. *)
Definition memory : mem :=
  <[1%positive := floats identity_matrix]>
  (<[2%positive := resource]>
  (<[3%positive := sfTexture (Obj 2%positive)]>
  (<[4%positive := sfShader]>
  (<[5%positive := floats [float_1; float_0; float_0]]> ∅)))).

(** Another memory: the same matrix in another block, the same wrappers
    in blocks 3 and 4, nothing else in common. *)
Definition memory' : mem :=
  <[7%positive := floats identity_matrix]>
  (<[3%positive := sfTexture (Obj 2%positive)]>
  (<[4%positive := sfShader]> ∅)).

End SpecModel.

(** ** Properties *)

(** *** The operations on memory *)

Lemma sfTexture_This_reads (texture : pointer) (m : mem) (q : pointer) (m' : mem) :
  sfTexture_This texture m = Some (q, m') ->
  m' = m /\ exists b, texture = Obj b /\ m !! b = Some (sfTexture q).
Proof.
  unfold sfTexture_This.
  destruct texture as [|b|b]; try discriminate.
  destruct (m !! b) as [[This| | |]|] eqn:E; try discriminate.
  intros [= -> ->]. split; [reflexivity|]. exists b. split; [reflexivity | exact E].
Qed.

Lemma texture_operand (texture : pointer) (m : mem) :
  (if to_bool texture then sfTexture_This texture else ret NULL) m
  = (fun q => (q, m)) <$> texture_member m texture.
Proof.
  destruct texture as [|b|b]; simpl; try reflexivity.
  destruct (m !! b) as [[This| | |]|]; reflexivity.
Qed.

Lemma shader_operand (shader : pointer) (m : mem) :
  (if to_bool shader then addr_sfShader_This shader else ret NULL) m
  = (fun q => (q, m)) <$> shader_member shader.
Proof. destruct shader; reflexivity. Qed.

Lemma readable_texture_member (m : mem) (texture : pointer) :
  readable_texture m texture = true -> is_Some (texture_member m texture).
Proof.
  destruct texture as [|b|b]; simpl; try discriminate; [eauto|].
  destruct (m !! b) as [[This| | |]|]; try discriminate; eauto.
Qed.

Lemma wrapper_pointer_member (shader : pointer) :
  wrapper_pointer shader = true -> is_Some (shader_member shader).
Proof. destruct shader; simpl; try discriminate; eauto. Qed.



(** *** The casts *)

Lemma static_cast_Factor_valid (unspecified : Z -> Z) (c : DInt) :
  BlendMode.valid_Factor c = true ->
  holds_Factor (BlendMode.static_cast_Factor unspecified c) c.
Proof.
  unfold BlendMode.valid_Factor. intros H.
  apply andb_true_iff in H as [H0 H9].
  apply Z.leb_le in H0. apply Z.leb_le in H9.
  assert (Hc : c = 0 \/ c = 1 \/ c = 2 \/ c = 3 \/ c = 4 \/
               c = 5 \/ c = 6 \/ c = 7 \/ c = 8 \/ c = 9) by lia.
  unfold holds_Factor.
  repeat (destruct Hc as [-> | Hc]); try subst c;
    (split; [reflexivity | eexists; split; reflexivity]).
Qed.

Lemma static_cast_Equation_valid (unspecified : Z -> Z) (c : DInt) :
  BlendMode.valid_Equation c = true ->
  holds_Equation (BlendMode.static_cast_Equation unspecified c) c.
Proof.
  unfold BlendMode.valid_Equation. intros H.
  apply andb_true_iff in H as [H0 H2].
  apply Z.leb_le in H0. apply Z.leb_le in H2.
  assert (Hc : c = 0 \/ c = 1 \/ c = 2) by lia.
  unfold holds_Equation.
  repeat (destruct Hc as [-> | Hc]); try subst c;
    (split; [reflexivity | eexists; split; reflexivity]).
Qed.

Lemma static_cast_Factor_invalid (unspecified : Z -> Z) (c : DInt) :
  BlendMode.valid_Factor c = false ->
  (BlendMode.static_cast_Factor unspecified c = c /\
   BlendMode.Factor_of_value c = None) \/
  BlendMode.static_cast_Factor unspecified c = unspecified c.
Proof.
  unfold BlendMode.valid_Factor, BlendMode.static_cast_Factor, static_cast_enum.
  change (enum_bmax (BlendMode.Factor_value BlendMode.OneMinusDstAlpha)) with 15.
  intros H. apply andb_false_iff in H.
  destruct (0 <=? c) eqn:E0; [|right; reflexivity].
  destruct (c <=? 15) eqn:E15; [|right; reflexivity].
  left. split; [reflexivity|].
  apply Z.leb_le in E0. apply Z.leb_le in E15.
  destruct H as [H|H]; [discriminate|]. apply Z.leb_gt in H.
  assert (Hc : c = 10 \/ c = 11 \/ c = 12 \/ c = 13 \/ c = 14 \/ c = 15) by lia.
  repeat (destruct Hc as [-> | Hc]); try subst c; reflexivity.
Qed.

Lemma static_cast_Equation_invalid (unspecified : Z -> Z) (c : DInt) :
  BlendMode.valid_Equation c = false ->
  (BlendMode.static_cast_Equation unspecified c = c /\
   BlendMode.Equation_of_value c = None) \/
  BlendMode.static_cast_Equation unspecified c = unspecified c.
Proof.
  unfold BlendMode.valid_Equation, BlendMode.static_cast_Equation, static_cast_enum.
  change (enum_bmax (BlendMode.Equation_value BlendMode.ReverseSubtract)) with 3.
  intros H. apply andb_false_iff in H.
  destruct (0 <=? c) eqn:E0; [|right; reflexivity].
  destruct (c <=? 3) eqn:E3; [|right; reflexivity].
  left. split; [reflexivity|].
  apply Z.leb_le in E0. apply Z.leb_le in E3.
  destruct H as [H|H]; [discriminate|]. apply Z.leb_gt in H.
  assert (Hc : c = 3) by lia. subst c. reflexivity.
Qed.

(** *** The spec-modelled collaborator *)

Lemma SpecModel_createTransform_pure (p : pointer) (m : mem)
    (T : SpecModel.Transform) (m' : mem) :
  SpecModel.createTransform p m = Some (T, m') -> m' = m.
Proof.
  unfold SpecModel.createTransform.
  destruct (buffer m p) as [fs|]; [|discriminate].
  destruct (16 <=? length fs)%nat; [|discriminate].
  intros [= _ <-]. reflexivity.
Qed.

Lemma SpecModel_createTransform_contents (m1 m2 : mem) (p1 p2 : pointer)
    (fs : list float) :
  buffer m1 p1 = Some fs -> buffer m2 p2 = Some fs ->
  fst <$> SpecModel.createTransform p1 m1 = fst <$> SpecModel.createTransform p2 m2.
Proof.
  unfold SpecModel.createTransform. intros -> ->.
  destruct (16 <=? length fs)%nat; reflexivity.
Qed.

Lemma SpecModel_createTransform_identity (m : mem) (p : pointer) :
  buffer m p = Some identity_matrix ->
  SpecModel.createTransform p m = Some (SpecModel.Identity, m).
Proof. unfold SpecModel.createTransform. intros ->. reflexivity. Qed.

(** *** Blend modes *)

Lemma BlendNone_replaces : Blending.replaces BlendMode.BlendNone.
Proof.
  intros [c a] dst. unfold Blending.apply, Blending.channel. simpl.
  f_equal. f_equal; lia.
Qed.

Lemma Zero_One_keeps_destination :
  Blending.keeps_destination (BlendMode.of_factors BlendMode.Zero BlendMode.One).
Proof.
  intros src [c a]. unfold Blending.apply, Blending.channel. simpl.
  f_equal. f_equal; lia.
Qed.

Lemma Zero_One_not_replaces :
  ~ Blending.replaces (BlendMode.of_factors BlendMode.Zero BlendMode.One).
Proof.
  intros H.
  specialize (H {| Blending.color := 1; Blending.alpha := 1 |}
                {| Blending.color := 0; Blending.alpha := 0 |}).
  vm_compute in H. discriminate.
Qed.

(** *** createRenderStates *)

Section Properties.

Variable Transform : Type.
Variable Transform_ctor : Transform.
Variable createTransform : pointer -> M Transform.
Variable unspecified_Factor : Z -> Z.
Variable unspecified_Equation : Z -> Z.

Local Abbreviation call :=
  (createRenderStates Transform_ctor createTransform
                      unspecified_Factor unspecified_Equation).
Local Abbreviation castF := (cast_Factor unspecified_Factor).
Local Abbreviation castE := (cast_Equation unspecified_Equation).

(** The value the function builds from the six codes, the transform and
    the two references. *)
Local Abbreviation built c1 c2 c3 c4 c5 c6 T tex sh :=
  (RenderStates.make
     (BlendMode.make (castF c1) (castF c2) (castE c3)
                     (castF c4) (castF c5) (castE c6))
     T tex sh).

(** The call, with the constructors and the member assignments carried
    out: every member of the result is assigned, nothing of the default
    values is left. *)
Lemma createRenderStates_unfold
    (c1 c2 c3 c4 c5 c6 : DInt) (p t s : pointer) (m : mem) :
  call c1 c2 c3 c4 c5 c6 p t s m =
  match createTransform p m with
  | None => None
  | Some (T, m1) =>
      match texture_member m1 t, shader_member s with
      | Some tex, Some sh => Some (built c1 c2 c3 c4 c5 c6 T tex sh, m1)
      | _, _ => None
      end
  end.
Proof.
  unfold createRenderStates, bind.
  destruct (createTransform p m) as [[T m1]|]; [|reflexivity].
  rewrite texture_operand.
  destruct (texture_member m1 t) as [tex|]; simpl; [|reflexivity].
  rewrite shader_operand.
  destruct (shader_member s) as [sh|]; reflexivity.
Qed.

Lemma createRenderStates_returns
    (c1 c2 c3 c4 c5 c6 : DInt) (p t s : pointer) (m : mem)
    (T : Transform) (m1 : mem) (tex sh : pointer) :
  createTransform p m = Some (T, m1) ->
  texture_member m1 t = Some tex ->
  shader_member s = Some sh ->
  call c1 c2 c3 c4 c5 c6 p t s m = Some (built c1 c2 c3 c4 c5 c6 T tex sh, m1).
Proof.
  intros HT Ht Hs. rewrite createRenderStates_unfold, HT, Ht, Hs. reflexivity.
Qed.

Lemma createRenderStates_inv
    (c1 c2 c3 c4 c5 c6 : DInt) (p t s : pointer) (m : mem)
    (rs : RenderStates.t Transform) (m' : mem) :
  call c1 c2 c3 c4 c5 c6 p t s m = Some (rs, m') ->
  exists T tex sh,
    createTransform p m = Some (T, m') /\
    texture_member m' t = Some tex /\
    shader_member s = Some sh /\
    rs = built c1 c2 c3 c4 c5 c6 T tex sh.
Proof.
  rewrite createRenderStates_unfold.
  destruct (createTransform p m) as [[T m1]|]; [|discriminate].
  destruct (texture_member m1 t) as [tex|] eqn:Ht; [|discriminate].
  destruct (shader_member s) as [sh|] eqn:Hs; [|discriminate].
  intros [= <- <-]. exists T, tex, sh. rewrite Ht. auto.
Qed.

(** C1: when the six codes are valid, the call returns a render state
    whose six blend-mode members hold what the enumeration tables give
    for the codes: each member is numerically the code it was given, and
    that number is the value of an enumerator. *)
Theorem createRenderStates_blend_fields
    (c1 c2 c3 c4 c5 c6 : DInt) (p t s : pointer) (m : mem)
    (T : Transform) (m1 : mem) :
  BlendMode.valid_Factor c1 = true ->
  BlendMode.valid_Factor c2 = true ->
  BlendMode.valid_Equation c3 = true ->
  BlendMode.valid_Factor c4 = true ->
  BlendMode.valid_Factor c5 = true ->
  BlendMode.valid_Equation c6 = true ->
  createTransform p m = Some (T, m1) ->
  readable_texture m1 t = true ->
  wrapper_pointer s = true ->
  exists rs,
    call c1 c2 c3 c4 c5 c6 p t s m = Some (rs, m1) /\
    holds_Factor (BlendMode.colorSrcFactor (RenderStates.blendMode rs)) c1 /\
    holds_Factor (BlendMode.colorDstFactor (RenderStates.blendMode rs)) c2 /\
    holds_Equation (BlendMode.colorEquation (RenderStates.blendMode rs)) c3 /\
    holds_Factor (BlendMode.alphaSrcFactor (RenderStates.blendMode rs)) c4 /\
    holds_Factor (BlendMode.alphaDstFactor (RenderStates.blendMode rs)) c5 /\
    holds_Equation (BlendMode.alphaEquation (RenderStates.blendMode rs)) c6.
Proof.
  intros V1 V2 V3 V4 V5 V6 HT Ht Hs.
  destruct (readable_texture_member _ _ Ht) as [tex Htex].
  destruct (wrapper_pointer_member _ Hs) as [sh Hsh].
  eexists. split.
  - apply createRenderStates_returns; eassumption.
  - simpl.
    repeat split;
      first [ apply static_cast_Factor_valid; assumption
            | apply static_cast_Equation_valid; assumption ].
Qed.

(** C2, as the code has it: a null texture parameter gives a null texture
    member; a texture parameter that points to a wrapper gives the
    pointer that the member [This] of the wrapper holds, [texture->This],
    and not the parameter itself. *)
Theorem createRenderStates_texture_reference
    (c1 c2 c3 c4 c5 c6 : DInt) (p t s : pointer) (m : mem)
    (T : Transform) (m1 : mem) :
  createTransform p m = Some (T, m1) ->
  wrapper_pointer s = true ->
  (t = NULL ->
   exists rs, call c1 c2 c3 c4 c5 c6 p t s m = Some (rs, m1) /\
              RenderStates.texture rs = NULL) /\
  (forall b This,
     t = Obj b -> m1 !! b = Some (sfTexture This) ->
     exists rs, call c1 c2 c3 c4 c5 c6 p t s m = Some (rs, m1) /\
                RenderStates.texture rs = This).
Proof.
  intros HT Hs. destruct (wrapper_pointer_member _ Hs) as [sh Hsh].
  split.
  - intros ->. eexists. split.
    + apply createRenderStates_returns; [eassumption | reflexivity | eassumption].
    + reflexivity.
  - intros b This -> Hb. eexists. split.
    + apply createRenderStates_returns; [eassumption | | eassumption].
      simpl. rewrite Hb. reflexivity.
    + reflexivity.
Qed.

(** The shader member: a null shader parameter gives a null shader
    member; a shader parameter that points to a wrapper gives the address
    of the member [This] of that wrapper, [&shader->This].  Whether that
    address is the address of the wrapper is a matter of the layout of
    [sfShader], which the pointers of this development leave open. *)
Theorem createRenderStates_shader_reference
    (c1 c2 c3 c4 c5 c6 : DInt) (p t s : pointer) (m : mem)
    (T : Transform) (m1 : mem) :
  createTransform p m = Some (T, m1) ->
  readable_texture m1 t = true ->
  (s = NULL ->
   exists rs, call c1 c2 c3 c4 c5 c6 p t s m = Some (rs, m1) /\
              RenderStates.shader rs = NULL) /\
  (forall b,
     s = Obj b ->
     exists rs, call c1 c2 c3 c4 c5 c6 p t s m = Some (rs, m1) /\
                RenderStates.shader rs = ThisOf b).
Proof.
  intros HT Ht. destruct (readable_texture_member _ _ Ht) as [tex Htex].
  split.
  - intros ->. eexists. split.
    + apply createRenderStates_returns; [eassumption | eassumption | reflexivity].
    + reflexivity.
  - intros b ->. eexists. split.
    + apply createRenderStates_returns; [eassumption | eassumption | reflexivity].
    + reflexivity.
Qed.

(** C4: whatever the collaborator [createTransform] is, the transform
    member of the result is what the collaborator returns for the very
    buffer pointer the function was given, and the memory the call
    leaves is the one the collaborator left. *)
Theorem createRenderStates_transform_delegated
    (c1 c2 c3 c4 c5 c6 : DInt) (p t s : pointer) (m : mem)
    (T : Transform) (m1 : mem) :
  createTransform p m = Some (T, m1) ->
  readable_texture m1 t = true ->
  wrapper_pointer s = true ->
  exists rs,
    call c1 c2 c3 c4 c5 c6 p t s m = Some (rs, m1) /\
    RenderStates.transform rs = T.
Proof.
  intros HT Ht Hs.
  destruct (readable_texture_member _ _ Ht) as [tex Htex].
  destruct (wrapper_pointer_member _ Hs) as [sh Hsh].
  eexists. split.
  - apply createRenderStates_returns; eassumption.
  - reflexivity.
Qed.

(** C5: no input is turned down.  For any six codes, valid or not, and
    handles that are null or point to wrappers, the call returns once
    the collaborator has; the blend-mode members are the casts of the
    codes, a null handle gives a null member, and the cast of an invalid
    code is a value that names no enumerator or the value the
    implementation chooses. *)
Theorem createRenderStates_signals_no_error
    (c1 c2 c3 c4 c5 c6 : DInt) (p t s : pointer) (m : mem)
    (T : Transform) (m1 : mem) :
  createTransform p m = Some (T, m1) ->
  readable_texture m1 t = true ->
  wrapper_pointer s = true ->
  (exists rs,
     call c1 c2 c3 c4 c5 c6 p t s m = Some (rs, m1) /\
     RenderStates.blendMode rs =
       BlendMode.make (castF c1) (castF c2) (castE c3)
                      (castF c4) (castF c5) (castE c6) /\
     (t = NULL -> RenderStates.texture rs = NULL) /\
     (s = NULL -> RenderStates.shader rs = NULL)) /\
  (forall c, BlendMode.valid_Factor c = false ->
     (castF c = c /\ BlendMode.Factor_of_value c = None) \/
     castF c = unspecified_Factor c) /\
  (forall c, BlendMode.valid_Equation c = false ->
     (castE c = c /\ BlendMode.Equation_of_value c = None) \/
     castE c = unspecified_Equation c).
Proof.
  intros HT Ht Hs.
  destruct (readable_texture_member _ _ Ht) as [tex Htex].
  destruct (wrapper_pointer_member _ Hs) as [sh Hsh].
  split; [|split].
  - eexists. split; [apply createRenderStates_returns; eassumption|].
    simpl. split; [reflexivity|]. split.
    + intros ->. simpl in Htex. congruence.
    + intros ->. simpl in Hsh. congruence.
  - intros c Hc. apply static_cast_Factor_invalid. exact Hc.
  - intros c Hc. apply static_cast_Equation_invalid. exact Hc.
Qed.

(** C6, as the code has it: for the codes 0, 1, 0, 0, 1, 0, a buffer
    that holds the identity matrix, a null texture and a null shader,
    and a collaborator that leaves memory alone and makes the identity
    transform from the identity matrix, the call returns a render state
    whose blend mode has source factor [Zero], destination factor [One]
    and equation [Add] for colour and for alpha, a mode that keeps the
    destination pixel and does not replace it, whose transform is the
    identity, and whose texture and shader members are null. *)
Theorem createRenderStates_example
    (Identity : Transform) (p : pointer) (m : mem) :
  (forall m0 p0, buffer m0 p0 = Some identity_matrix ->
                 createTransform p0 m0 = Some (Identity, m0)) ->
  buffer m p = Some identity_matrix ->
  exists rs,
    call 0 1 0 0 1 0 p NULL NULL m = Some (rs, m) /\
    RenderStates.blendMode rs = BlendMode.of_factors BlendMode.Zero BlendMode.One /\
    Blending.keeps_destination (RenderStates.blendMode rs) /\
    ~ Blending.replaces (RenderStates.blendMode rs) /\
    RenderStates.transform rs = Identity /\
    RenderStates.texture rs = NULL /\
    RenderStates.shader rs = NULL.
Proof.
  intros Hid Hbuf. eexists. split.
  - apply createRenderStates_returns; [apply Hid, Hbuf | reflexivity | reflexivity].
  - simpl. change (BlendMode.make _ _ _ _ _ _)
      with (BlendMode.of_factors BlendMode.Zero BlendMode.One).
    split; [reflexivity|].
    split; [exact Zero_One_keeps_destination|].
    split; [exact Zero_One_not_replaces|].
    repeat split.
Qed.

(** C7: two calls with the same six codes, buffers of the same contents,
    the same texture handle designating the same wrapper contents and
    the same shader handle return equal render states, for a
    collaborator that leaves memory alone and whose result depends on
    the contents of the buffer only. *)
Theorem createRenderStates_deterministic
    (c1 c2 c3 c4 c5 c6 : DInt) (p1 p2 t s : pointer) (m1 m2 : mem)
    (fs : list float) :
  (forall q m0 T0 m0', createTransform q m0 = Some (T0, m0') -> m0' = m0) ->
  (forall ma mb pa pb gs,
     buffer ma pa = Some gs -> buffer mb pb = Some gs ->
     fst <$> createTransform pa ma = fst <$> createTransform pb mb) ->
  buffer m1 p1 = Some fs ->
  buffer m2 p2 = Some fs ->
  is_Some (createTransform p1 m1) ->
  readable_texture m1 t = true ->
  (forall b, t = Obj b -> m2 !! b = m1 !! b) ->
  wrapper_pointer s = true ->
  exists rs,
    call c1 c2 c3 c4 c5 c6 p1 t s m1 = Some (rs, m1) /\
    call c1 c2 c3 c4 c5 c6 p2 t s m2 = Some (rs, m2).
Proof.
  intros Hpure Hcont Hb1 Hb2 [[T m1'] HT1] Ht Hsame Hs.
  pose proof (Hpure _ _ _ _ HT1) as ->.
  pose proof (Hcont _ _ _ _ _ Hb1 Hb2) as Heq.
  rewrite HT1 in Heq. simpl in Heq.
  destruct (createTransform p2 m2) as [[T2 m2']|] eqn:HT2; [|discriminate].
  simpl in Heq. injection Heq as <-.
  pose proof (Hpure _ _ _ _ HT2) as ->.
  destruct (readable_texture_member _ _ Ht) as [tex Htex].
  destruct (wrapper_pointer_member _ Hs) as [sh Hsh].
  assert (Htex2 : texture_member m2 t = Some tex).
  { destruct t as [|b|b]; simpl in *; try assumption.
    rewrite (Hsame b eq_refl). assumption. }
  eexists. split; apply createRenderStates_returns; eassumption.
Qed.


(** C9: the function is pure.  With a collaborator that leaves memory
    alone, the call returns, and the memory after it is the memory before
    it, so the wrappers and the buffer are as they were.  It reads only
    through its parameters: in any other memory in which the collaborator
    gives the same transform for the buffer pointer and the texture
    parameter designates the same wrapper contents, whatever else that
    memory holds, the call gives the same value; with a collaborator
    that depends on the contents of the buffer only, a memory that holds
    the same buffer contents and the same texture wrapper is enough. *)
Theorem createRenderStates_pure
    (c1 c2 c3 c4 c5 c6 : DInt) (p t s : pointer) (m : mem) :
  (forall q m0 T0 m0', createTransform q m0 = Some (T0, m0') -> m0' = m0) ->
  is_Some (createTransform p m) ->
  readable_texture m t = true ->
  wrapper_pointer s = true ->
  (exists rs, call c1 c2 c3 c4 c5 c6 p t s m = Some (rs, m)) /\
  (forall rs m',
     call c1 c2 c3 c4 c5 c6 p t s m = Some (rs, m') ->
     m' = m /\ forall b, m' !! b = m !! b) /\
  (forall m2,
     fst <$> createTransform p m2 = fst <$> createTransform p m ->
     (forall b, t = Obj b -> m2 !! b = m !! b) ->
     fst <$> call c1 c2 c3 c4 c5 c6 p t s m2
     = fst <$> call c1 c2 c3 c4 c5 c6 p t s m) /\
  ((forall ma mb pa pb gs,
      buffer ma pa = Some gs -> buffer mb pb = Some gs ->
      fst <$> createTransform pa ma = fst <$> createTransform pb mb) ->
   forall m2 fs,
     buffer m p = Some fs -> buffer m2 p = Some fs ->
     (forall b, t = Obj b -> m2 !! b = m !! b) ->
     fst <$> call c1 c2 c3 c4 c5 c6 p t s m2
     = fst <$> call c1 c2 c3 c4 c5 c6 p t s m).
Proof.
  intros Hpure [[T m1] HT] Ht Hs.
  pose proof (Hpure _ _ _ _ HT) as ->.
  destruct (readable_texture_member _ _ Ht) as [tex Htex].
  destruct (wrapper_pointer_member _ Hs) as [sh Hsh].
  assert (Hframe : forall m2,
            fst <$> createTransform p m2 = fst <$> createTransform p m ->
            (forall b, t = Obj b -> m2 !! b = m !! b) ->
            fst <$> call c1 c2 c3 c4 c5 c6 p t s m2
            = fst <$> call c1 c2 c3 c4 c5 c6 p t s m).
  { intros m2 Heq Hsame.
    rewrite (createRenderStates_returns c1 c2 c3 c4 c5 c6 _ _ _ _ _ _ _ _ HT Htex Hsh).
    rewrite HT in Heq. simpl in Heq.
    destruct (createTransform p m2) as [[T2 m2']|] eqn:HT2; [|discriminate].
    simpl in Heq. injection Heq as ->.
    pose proof (Hpure _ _ _ _ HT2) as ->.
    assert (Htex2 : texture_member m2 t = Some tex).
    { destruct t as [|b|b]; simpl in *; try assumption.
      rewrite (Hsame b eq_refl). assumption. }
    rewrite (createRenderStates_returns c1 c2 c3 c4 c5 c6 _ _ _ _ _ _ _ _ HT2 Htex2 Hsh).
    reflexivity. }
  split; [|split; [|split]].
  - eexists. apply createRenderStates_returns; eassumption.
  - intros rs m' H.
    rewrite (createRenderStates_returns c1 c2 c3 c4 c5 c6 _ _ _ _ _ _ _ _ HT Htex Hsh) in H.
    injection H as _ <-. split; reflexivity.
  - exact Hframe.
  - intros Hcont m2 fs Hb Hb2 Hsame.
    apply Hframe; [|exact Hsame].
    exact (Hcont _ _ _ _ _ Hb2 Hb).
Qed.


End Properties.

(** *** The statements at concrete inputs

    The function is run with the spec-modelled collaborator in the memory
    [SpecModel.memory]: the buffer is block 1, the texture wrapper block
    3 (its [This] is the texture of block 2), the shader wrapper block
    4. *)

Lemma createRenderStates_blend_fields_witness :
  exists rs,
    SpecModel.createRenderStates 6 7 0 1 9 2
      (Obj 1%positive) (Obj 3%positive) (Obj 4%positive) SpecModel.memory
    = Some (rs, SpecModel.memory) /\
    holds_Factor (BlendMode.colorSrcFactor (RenderStates.blendMode rs)) 6 /\
    holds_Factor (BlendMode.colorDstFactor (RenderStates.blendMode rs)) 7 /\
    holds_Equation (BlendMode.colorEquation (RenderStates.blendMode rs)) 0 /\
    holds_Factor (BlendMode.alphaSrcFactor (RenderStates.blendMode rs)) 1 /\
    holds_Factor (BlendMode.alphaDstFactor (RenderStates.blendMode rs)) 9 /\
    holds_Equation (BlendMode.alphaEquation (RenderStates.blendMode rs)) 2.
Proof.
  apply (createRenderStates_blend_fields
           SpecModel.Transform SpecModel.Identity SpecModel.createTransform
           SpecModel.unspecified SpecModel.unspecified
           6 7 0 1 9 2 (Obj 1%positive) (Obj 3%positive) (Obj 4%positive)
           SpecModel.memory SpecModel.Identity SpecModel.memory);
    reflexivity.
Defined.

Lemma createRenderStates_texture_reference_witness :
  (exists rs,
     SpecModel.createRenderStates 6 7 0 1 9 2
       (Obj 1%positive) NULL (Obj 4%positive) SpecModel.memory
     = Some (rs, SpecModel.memory) /\
     RenderStates.texture rs = NULL) /\
  (exists rs,
     SpecModel.createRenderStates 6 7 0 1 9 2
       (Obj 1%positive) (Obj 3%positive) (Obj 4%positive) SpecModel.memory
     = Some (rs, SpecModel.memory) /\
     RenderStates.texture rs = Obj 2%positive).
Proof.
  split.
  - apply (createRenderStates_texture_reference
             SpecModel.Transform SpecModel.Identity SpecModel.createTransform
             SpecModel.unspecified SpecModel.unspecified
             6 7 0 1 9 2 (Obj 1%positive) NULL (Obj 4%positive)
             SpecModel.memory SpecModel.Identity SpecModel.memory);
      reflexivity.
  - apply (createRenderStates_texture_reference
             SpecModel.Transform SpecModel.Identity SpecModel.createTransform
             SpecModel.unspecified SpecModel.unspecified
             6 7 0 1 9 2 (Obj 1%positive) (Obj 3%positive) (Obj 4%positive)
             SpecModel.memory SpecModel.Identity SpecModel.memory
             eq_refl eq_refl) with (b := 3%positive);
      reflexivity.
Defined.

(** C2, as the spec words it, fails: the texture member is not the
    texture parameter.  With the wrapper of block 3 as parameter, whose
    [This] is the texture of block 2, the member is the address of block
    2; and when the [This] of that wrapper is null, the parameter is not
    null and the member is. *)
Lemma createRenderStates_texture_not_the_handle :
  (exists rs,
     SpecModel.createRenderStates 6 7 0 1 9 2
       (Obj 1%positive) (Obj 3%positive) (Obj 4%positive) SpecModel.memory
     = Some (rs, SpecModel.memory) /\
     Obj 3%positive <> NULL /\
     RenderStates.texture rs = Obj 2%positive /\
     RenderStates.texture rs <> Obj 3%positive) /\
  (exists rs,
     SpecModel.createRenderStates 6 7 0 1 9 2
       (Obj 1%positive) (Obj 3%positive) (Obj 4%positive)
       (<[3%positive := sfTexture NULL]> SpecModel.memory)
     = Some (rs, <[3%positive := sfTexture NULL]> SpecModel.memory) /\
     Obj 3%positive <> NULL /\
     RenderStates.texture rs = NULL /\
     RenderStates.texture rs <> Obj 3%positive).
Proof.
  split.
  - exists (RenderStates.make (BlendMode.make 6 7 0 1 9 2)
              SpecModel.Identity (Obj 2%positive) (ThisOf 4%positive)).
    split; [reflexivity|]. simpl.
    split; [discriminate|]. split; [reflexivity | discriminate].
  - exists (RenderStates.make (BlendMode.make 6 7 0 1 9 2)
              SpecModel.Identity NULL (ThisOf 4%positive)).
    split; [reflexivity|]. simpl.
    split; [discriminate|]. split; [reflexivity | discriminate].
Qed.

Lemma createRenderStates_shader_reference_witness :
  (exists rs,
     SpecModel.createRenderStates 6 7 0 1 9 2
       (Obj 1%positive) (Obj 3%positive) NULL SpecModel.memory
     = Some (rs, SpecModel.memory) /\
     RenderStates.shader rs = NULL) /\
  (exists rs,
     SpecModel.createRenderStates 6 7 0 1 9 2
       (Obj 1%positive) (Obj 3%positive) (Obj 4%positive) SpecModel.memory
     = Some (rs, SpecModel.memory) /\
     RenderStates.shader rs = ThisOf 4%positive).
Proof.
  split.
  - apply (createRenderStates_shader_reference
             SpecModel.Transform SpecModel.Identity SpecModel.createTransform
             SpecModel.unspecified SpecModel.unspecified
             6 7 0 1 9 2 (Obj 1%positive) (Obj 3%positive) NULL
             SpecModel.memory SpecModel.Identity SpecModel.memory);
      reflexivity.
  - apply (createRenderStates_shader_reference
             SpecModel.Transform SpecModel.Identity SpecModel.createTransform
             SpecModel.unspecified SpecModel.unspecified
             6 7 0 1 9 2 (Obj 1%positive) (Obj 3%positive) (Obj 4%positive)
             SpecModel.memory SpecModel.Identity SpecModel.memory
             eq_refl eq_refl);
      reflexivity.
Defined.

(** The default transform is taken to be the empty list here, so that
    the transform of the result can only come from the collaborator. *)
Lemma createRenderStates_transform_delegated_witness :
  exists rs,
    createRenderStates (Transform := SpecModel.Transform) []
      SpecModel.createTransform SpecModel.unspecified SpecModel.unspecified
      6 7 0 1 9 2
      (Obj 1%positive) (Obj 3%positive) (Obj 4%positive) SpecModel.memory
    = Some (rs, SpecModel.memory) /\
    RenderStates.transform rs = identity_matrix.
Proof.
  apply (createRenderStates_transform_delegated
           SpecModel.Transform [] SpecModel.createTransform
           SpecModel.unspecified SpecModel.unspecified
           6 7 0 1 9 2 (Obj 1%positive) (Obj 3%positive) (Obj 4%positive)
           SpecModel.memory SpecModel.Identity SpecModel.memory);
    reflexivity.
Defined.

(** Codes that no enumerator has, among them a negative one and the
    largest [DInt], with null handles. *)
Lemma createRenderStates_signals_no_error_witness :
  exists rs,
    SpecModel.createRenderStates 12 77 3 (-1) 2147483647 (-5)
      (Obj 1%positive) NULL NULL SpecModel.memory
    = Some (rs, SpecModel.memory) /\
    RenderStates.blendMode rs = BlendMode.make 12 77 3 (-1) 2147483647 (-5) /\
    RenderStates.texture rs = NULL /\
    RenderStates.shader rs = NULL.
Proof.
  destruct (createRenderStates_signals_no_error
              SpecModel.Transform SpecModel.Identity SpecModel.createTransform
              SpecModel.unspecified SpecModel.unspecified
              12 77 3 (-1) 2147483647 (-5) (Obj 1%positive) NULL NULL
              SpecModel.memory SpecModel.Identity SpecModel.memory
              eq_refl eq_refl eq_refl)
    as [[rs [Hcall [Hblend [Htex Hsh]]]] _].
  exists rs.
  split; [exact Hcall|].
  split; [exact Hblend|].
  split; [exact (Htex eq_refl) | exact (Hsh eq_refl)].
Defined.

Lemma createRenderStates_example_witness :
  exists rs,
    SpecModel.createRenderStates 0 1 0 0 1 0
      (Obj 1%positive) NULL NULL SpecModel.memory
    = Some (rs, SpecModel.memory) /\
    RenderStates.blendMode rs = BlendMode.of_factors BlendMode.Zero BlendMode.One /\
    Blending.keeps_destination (RenderStates.blendMode rs) /\
    ~ Blending.replaces (RenderStates.blendMode rs) /\
    RenderStates.transform rs = SpecModel.Identity /\
    RenderStates.texture rs = NULL /\
    RenderStates.shader rs = NULL.
Proof.
  apply (createRenderStates_example
           SpecModel.Transform SpecModel.Identity SpecModel.createTransform
           SpecModel.unspecified SpecModel.unspecified
           SpecModel.Identity (Obj 1%positive) SpecModel.memory
           SpecModel_createTransform_identity eq_refl).
Defined.

(** C6, as the spec words it, fails: at the input of the example the call
    returns the blend mode with source factor 0 ([Zero]) and destination
    factor 1 ([One]), which is neither the replace mode [BlendNone]
    (source [One], destination [Zero]) nor the default mode, and does not
    replace: a source pixel of full intensity over an empty destination
    leaves the destination empty. *)
Lemma createRenderStates_example_not_replace :
  exists rs,
    SpecModel.createRenderStates 0 1 0 0 1 0
      (Obj 1%positive) NULL NULL SpecModel.memory
    = Some (rs, SpecModel.memory) /\
    RenderStates.blendMode rs <> BlendMode.BlendNone /\
    RenderStates.blendMode rs <> BlendMode.ctor /\
    Blending.apply (RenderStates.blendMode rs)
      {| Blending.color := 1; Blending.alpha := 1 |}
      {| Blending.color := 0; Blending.alpha := 0 |}
    = Some {| Blending.color := 0; Blending.alpha := 0 |} /\
    Blending.apply BlendMode.BlendNone
      {| Blending.color := 1; Blending.alpha := 1 |}
      {| Blending.color := 0; Blending.alpha := 0 |}
    = Some {| Blending.color := 1; Blending.alpha := 1 |} /\
    ~ Blending.replaces (RenderStates.blendMode rs).
Proof.
  exists (RenderStates.make
            (BlendMode.of_factors BlendMode.Zero BlendMode.One)
            SpecModel.Identity NULL NULL).
  split; [reflexivity|]. simpl.
  split; [discriminate|].
  split; [discriminate|].
  split; [reflexivity|].
  split; [reflexivity|].
  exact Zero_One_not_replaces.
Qed.

(** Two calls in two memories that share the buffer contents and the
    texture wrapper only. *)
Lemma createRenderStates_deterministic_witness :
  exists rs,
    SpecModel.createRenderStates 6 7 0 1 9 2
      (Obj 1%positive) (Obj 3%positive) (Obj 4%positive) SpecModel.memory
    = Some (rs, SpecModel.memory) /\
    SpecModel.createRenderStates 6 7 0 1 9 2
      (Obj 7%positive) (Obj 3%positive) (Obj 4%positive) SpecModel.memory'
    = Some (rs, SpecModel.memory').
Proof.
  apply (createRenderStates_deterministic
           SpecModel.Transform SpecModel.Identity SpecModel.createTransform
           SpecModel.unspecified SpecModel.unspecified
           6 7 0 1 9 2 (Obj 1%positive) (Obj 7%positive)
           (Obj 3%positive) (Obj 4%positive)
           SpecModel.memory SpecModel.memory' identity_matrix
           SpecModel_createTransform_pure
           SpecModel_createTransform_contents
           eq_refl eq_refl).
  - exists (SpecModel.Identity, SpecModel.memory). reflexivity.
  - reflexivity.
  - intros b [= <-]. reflexivity.
  - reflexivity.
Defined.

Lemma createRenderStates_pure_witness :
  (exists rs,
     SpecModel.createRenderStates 6 7 0 1 9 2
       (Obj 1%positive) (Obj 3%positive) (Obj 4%positive) SpecModel.memory
     = Some (rs, SpecModel.memory)) /\
  (forall rs m',
     SpecModel.createRenderStates 6 7 0 1 9 2
       (Obj 1%positive) (Obj 3%positive) (Obj 4%positive) SpecModel.memory
     = Some (rs, m') ->
     m' = SpecModel.memory /\ forall b, m' !! b = SpecModel.memory !! b) /\
  (forall m2,
     fst <$> SpecModel.createTransform (Obj 1%positive) m2
     = fst <$> SpecModel.createTransform (Obj 1%positive) SpecModel.memory ->
     (forall b, Obj 3%positive = Obj b -> m2 !! b = SpecModel.memory !! b) ->
     fst <$> SpecModel.createRenderStates 6 7 0 1 9 2
               (Obj 1%positive) (Obj 3%positive) (Obj 4%positive) m2
     = fst <$> SpecModel.createRenderStates 6 7 0 1 9 2
                 (Obj 1%positive) (Obj 3%positive) (Obj 4%positive)
                 SpecModel.memory) /\
  ((forall ma mb pa pb gs,
      buffer ma pa = Some gs -> buffer mb pb = Some gs ->
      fst <$> SpecModel.createTransform pa ma
      = fst <$> SpecModel.createTransform pb mb) ->
   forall m2 fs,
     buffer SpecModel.memory (Obj 1%positive) = Some fs ->
     buffer m2 (Obj 1%positive) = Some fs ->
     (forall b, Obj 3%positive = Obj b -> m2 !! b = SpecModel.memory !! b) ->
     fst <$> SpecModel.createRenderStates 6 7 0 1 9 2
               (Obj 1%positive) (Obj 3%positive) (Obj 4%positive) m2
     = fst <$> SpecModel.createRenderStates 6 7 0 1 9 2
                 (Obj 1%positive) (Obj 3%positive) (Obj 4%positive)
                 SpecModel.memory).
Proof.
  apply (createRenderStates_pure
           SpecModel.Transform SpecModel.Identity SpecModel.createTransform
           SpecModel.unspecified SpecModel.unspecified
           6 7 0 1 9 2 (Obj 1%positive) (Obj 3%positive) (Obj 4%positive)
           SpecModel.memory SpecModel_createTransform_pure).
  - exists (SpecModel.Identity, SpecModel.memory). reflexivity.
  - reflexivity.
  - reflexivity.
Defined.


(** *** The buffer pointer is not examined

    With a collaborator that hands back the pointer it receives, the
    result shows what the function passed: a null buffer pointer reaches
    the collaborator as it is.  With the spec-modelled collaborator, a
    null buffer and a buffer of three floats leave the call without a
    defined outcome: nothing in the function notices them. *)

Example null_buffer_forwarded :
  fst <$> createRenderStates NULL (fun p : pointer => ret p)
            SpecModel.unspecified SpecModel.unspecified
            0 1 0 0 1 0 NULL NULL NULL SpecModel.memory
  = Some (RenderStates.make
            (BlendMode.of_factors BlendMode.Zero BlendMode.One) NULL NULL NULL).
Proof. reflexivity. Qed.

Example null_buffer_not_detected :
  SpecModel.createRenderStates 0 1 0 0 1 0 NULL NULL NULL SpecModel.memory = None.
Proof. reflexivity. Qed.

Example short_buffer_not_detected :
  SpecModel.createRenderStates 0 1 0 0 1 0 (Obj 5%positive) NULL NULL SpecModel.memory
  = None.
Proof. reflexivity. Qed.

(** A texture wrapper whose [This] is null: the handle is not null, the
    member of the result is. *)
Example texture_wrapper_of_null :
  fst <$> SpecModel.createRenderStates 0 1 0 0 1 0
            (Obj 1%positive) (Obj 3%positive) NULL
            (<[3%positive := sfTexture NULL]> SpecModel.memory)
  = Some (RenderStates.make
            (BlendMode.of_factors BlendMode.Zero BlendMode.One)
            SpecModel.Identity NULL NULL).
Proof. reflexivity. Qed.

(** ** Further properties of createRenderStates

    What lines 39 to 59 show besides: when the call has a defined outcome,
    how presence of a handle carries over to the result, and what does
    not depend on the implementation. *)

Section FurtherProperties.

Variable Transform : Type.
Variable Transform_ctor : Transform.
Variable createTransform : pointer -> M Transform.
Variable unspecified_Factor : Z -> Z.
Variable unspecified_Equation : Z -> Z.

Local Abbreviation call :=
  (createRenderStates Transform_ctor createTransform
                      unspecified_Factor unspecified_Equation).

(** X1: the call has a defined outcome exactly when the collaborator
    returns on the buffer pointer, the texture parameter is null or
    points, in the memory the collaborator leaves, to a live [sfTexture],
    and the shader parameter is null or the address of an object.  The
    six codes have no part in it. *)
Theorem createRenderStates_defined_iff
    (c1 c2 c3 c4 c5 c6 : DInt) (p t s : pointer) (m : mem) :
  is_Some (call c1 c2 c3 c4 c5 c6 p t s m) <->
  exists T m1,
    createTransform p m = Some (T, m1) /\
    readable_texture m1 t = true /\
    wrapper_pointer s = true.
Proof.
  rewrite createRenderStates_unfold. split.
  - destruct (createTransform p m) as [[T m1]|]; [|intros [x Hx]; discriminate].
    destruct (texture_member m1 t) as [tex|] eqn:Ht; [|intros [x Hx]; discriminate].
    destruct (shader_member s) as [sh|] eqn:Hs; [|intros [x Hx]; discriminate].
    intros _. exists T, m1. split; [reflexivity|]. split.
    + destruct t as [|b|b]; simpl in *; try discriminate; [reflexivity|].
      destruct (m1 !! b) as [[q| | |]|]; try discriminate; reflexivity.
    + destruct s; simpl in *; try discriminate; reflexivity.
  - intros (T & m1 & HT & Ht & Hs). rewrite HT.
    destruct (readable_texture_member _ _ Ht) as [tex ->].
    destruct (wrapper_pointer_member _ Hs) as [sh ->].
    eauto.
Qed.

(** X3: presence of the shader is carried over exactly.  In the result of
    a call the shader member is null if and only if the shader parameter
    is null, and it is the address of the member [This] of block [b] if
    and only if the parameter is the address of block [b]. *)
Theorem createRenderStates_shader_presence
    (c1 c2 c3 c4 c5 c6 : DInt) (p t s : pointer) (m : mem)
    (rs : RenderStates.t Transform) (m' : mem) :
  call c1 c2 c3 c4 c5 c6 p t s m = Some (rs, m') ->
  (RenderStates.shader rs = NULL <-> s = NULL) /\
  (forall b, RenderStates.shader rs = ThisOf b <-> s = Obj b).
Proof.
  intros H.
  destruct (createRenderStates_inv _ _ _ _ _ _ _ _ _ _ _ _ _ _ _ _ _ H)
    as (T & tex & sh & _ & _ & Hs & ->).
  simpl. destruct s as [|b0|b0]; simpl in Hs; try discriminate;
    injection Hs as <-.
  - split; [tauto|]. intros b; split; discriminate.
  - split; [split; discriminate|]. intros b; split; congruence.
Qed.

(** X4: presence of the texture is not carried over exactly.  In the
    result of a call the texture member is null if and only if the
    texture parameter is null or points to a wrapper whose member [This]
    is null: a non-null handle can give an absent texture. *)
Theorem createRenderStates_texture_absent
    (c1 c2 c3 c4 c5 c6 : DInt) (p t s : pointer) (m : mem)
    (rs : RenderStates.t Transform) (m' : mem) :
  call c1 c2 c3 c4 c5 c6 p t s m = Some (rs, m') ->
  (RenderStates.texture rs = NULL <->
   t = NULL \/ exists b, t = Obj b /\ m' !! b = Some (sfTexture NULL)).
Proof.
  intros H.
  destruct (createRenderStates_inv _ _ _ _ _ _ _ _ _ _ _ _ _ _ _ _ _ H)
    as (T & tex & sh & _ & Ht & _ & ->).
  simpl. destruct t as [|b|b]; simpl in Ht; try discriminate.
  - injection Ht as <-. split; [left; reflexivity | reflexivity].
  - destruct (m' !! b) as [[q| | |]|] eqn:Hb; try discriminate.
    injection Ht as <-. split.
    + intros ->. right. exists b. split; [reflexivity | exact Hb].
    + intros [Hnull | (b' & Hobj & Hb')]; [discriminate|].
      injection Hobj as <-. congruence.
Qed.

(** X5: a blend mode goes through the conversion unchanged.  When the six
    arguments are the values of six enumerators, the blend mode of the
    result is the blend mode SFML builds from those enumerators with
    [BlendMode(csrc, cdst, ceq, asrc, adst, aeq)], whatever the
    implementation does with other integers. *)
Theorem createRenderStates_blendMode_round_trip
    (cs cd : BlendMode.Factor_enumerator) (ce : BlendMode.Equation_enumerator)
    (as_ ad : BlendMode.Factor_enumerator) (ae : BlendMode.Equation_enumerator)
    (p t s : pointer) (m : mem) (T : Transform) (m1 : mem) :
  createTransform p m = Some (T, m1) ->
  readable_texture m1 t = true ->
  wrapper_pointer s = true ->
  exists rs,
    call (BlendMode.Factor_value cs) (BlendMode.Factor_value cd)
         (BlendMode.Equation_value ce)
         (BlendMode.Factor_value as_) (BlendMode.Factor_value ad)
         (BlendMode.Equation_value ae) p t s m = Some (rs, m1) /\
    RenderStates.blendMode rs = BlendMode.of_enumerators cs cd ce as_ ad ae.
Proof.
  intros HT Ht Hs.
  destruct (readable_texture_member _ _ Ht) as [tex Htex].
  destruct (wrapper_pointer_member _ Hs) as [sh Hsh].
  eexists. split.
  - apply createRenderStates_returns; eassumption.
  - simpl. destruct cs, cd, ce, as_, ad, ae; reflexivity.
Qed.

(** X6: for valid codes the outcome does not depend on the
    implementation: two implementations that differ in what they make of
    integers an enumeration cannot hold give the same outcome of the
    call. *)
Theorem createRenderStates_implementation_independent
    (unspecified_Factor' unspecified_Equation' : Z -> Z)
    (c1 c2 c3 c4 c5 c6 : DInt) (p t s : pointer) (m : mem) :
  BlendMode.valid_Factor c1 = true ->
  BlendMode.valid_Factor c2 = true ->
  BlendMode.valid_Equation c3 = true ->
  BlendMode.valid_Factor c4 = true ->
  BlendMode.valid_Factor c5 = true ->
  BlendMode.valid_Equation c6 = true ->
  call c1 c2 c3 c4 c5 c6 p t s m
  = createRenderStates Transform_ctor createTransform
      unspecified_Factor' unspecified_Equation' c1 c2 c3 c4 c5 c6 p t s m.
Proof.
  intros V1 V2 V3 V4 V5 V6. rewrite !createRenderStates_unfold.
  pose proof (fun u => proj1 (static_cast_Factor_valid u _ V1)) as E1.
  pose proof (fun u => proj1 (static_cast_Factor_valid u _ V2)) as E2.
  pose proof (fun u => proj1 (static_cast_Equation_valid u _ V3)) as E3.
  pose proof (fun u => proj1 (static_cast_Factor_valid u _ V4)) as E4.
  pose proof (fun u => proj1 (static_cast_Factor_valid u _ V5)) as E5.
  pose proof (fun u => proj1 (static_cast_Equation_valid u _ V6)) as E6.
  simpl. rewrite !E1, !E2, !E3, !E4, !E5, !E6. reflexivity.
Qed.

End FurtherProperties.

(** *** The further statements at concrete inputs *)

Lemma createRenderStates_shader_presence_witness :
  (ThisOf 4%positive = NULL <-> Obj 4%positive = NULL) /\
  (forall b, ThisOf 4%positive = ThisOf b <-> Obj 4%positive = Obj b).
Proof.
  exact (createRenderStates_shader_presence
           SpecModel.Transform SpecModel.Identity SpecModel.createTransform
           SpecModel.unspecified SpecModel.unspecified
           6 7 0 1 9 2 (Obj 1%positive) (Obj 3%positive) (Obj 4%positive)
           SpecModel.memory
           (RenderStates.make (BlendMode.make 6 7 0 1 9 2)
                              SpecModel.Identity (Obj 2%positive) (ThisOf 4%positive))
           SpecModel.memory eq_refl).
Defined.

(** The wrapper of block 3 holds a null [This]: the handle is present,
    the texture of the result is absent. *)
Lemma createRenderStates_texture_absent_witness :
  SpecModel.createRenderStates 6 7 0 1 9 2
    (Obj 1%positive) (Obj 3%positive) (Obj 4%positive)
    (<[3%positive := sfTexture NULL]> SpecModel.memory)
  = Some (RenderStates.make (BlendMode.make 6 7 0 1 9 2)
                            SpecModel.Identity NULL (ThisOf 4%positive),
          <[3%positive := sfTexture NULL]> SpecModel.memory) /\
  (NULL = NULL <->
   Obj 3%positive = NULL \/
   exists b, Obj 3%positive = Obj b /\
             (<[3%positive := sfTexture NULL]> SpecModel.memory) !! b
             = Some (sfTexture NULL)).
Proof.
  split; [reflexivity|].
  exact (createRenderStates_texture_absent
           SpecModel.Transform SpecModel.Identity SpecModel.createTransform
           SpecModel.unspecified SpecModel.unspecified
           6 7 0 1 9 2 (Obj 1%positive) (Obj 3%positive) (Obj 4%positive)
           (<[3%positive := sfTexture NULL]> SpecModel.memory)
           (RenderStates.make (BlendMode.make 6 7 0 1 9 2)
                              SpecModel.Identity NULL (ThisOf 4%positive))
           (<[3%positive := sfTexture NULL]> SpecModel.memory) eq_refl).
Defined.

(** The members of a mode that differs from the default mode in every
    member, sent as integers, give that mode. *)
Lemma createRenderStates_blendMode_round_trip_witness :
  exists rs,
    SpecModel.createRenderStates 4 0 2 9 3 1
      (Obj 1%positive) (Obj 3%positive) (Obj 4%positive) SpecModel.memory
    = Some (rs, SpecModel.memory) /\
    RenderStates.blendMode rs =
      BlendMode.of_enumerators
        BlendMode.DstColor BlendMode.Zero BlendMode.ReverseSubtract
        BlendMode.OneMinusDstAlpha BlendMode.OneMinusSrcColor BlendMode.Subtract.
Proof.
  exact (createRenderStates_blendMode_round_trip
           SpecModel.Transform SpecModel.Identity SpecModel.createTransform
           SpecModel.unspecified SpecModel.unspecified
           BlendMode.DstColor BlendMode.Zero BlendMode.ReverseSubtract
           BlendMode.OneMinusDstAlpha BlendMode.OneMinusSrcColor BlendMode.Subtract
           (Obj 1%positive) (Obj 3%positive) (Obj 4%positive)
           SpecModel.memory SpecModel.Identity SpecModel.memory
           eq_refl eq_refl eq_refl).
Defined.

(** An implementation that keeps the integer and one that yields 0. *)
Lemma createRenderStates_implementation_independent_witness :
  SpecModel.createRenderStates 6 7 0 1 9 2
    (Obj 1%positive) (Obj 3%positive) (Obj 4%positive) SpecModel.memory
  = createRenderStates SpecModel.Identity SpecModel.createTransform
      (fun _ => 0) (fun _ => 0) 6 7 0 1 9 2
      (Obj 1%positive) (Obj 3%positive) (Obj 4%positive) SpecModel.memory.
Proof.
  exact (createRenderStates_implementation_independent
           SpecModel.Transform SpecModel.Identity SpecModel.createTransform
           SpecModel.unspecified SpecModel.unspecified
           (fun _ => 0) (fun _ => 0)
           6 7 0 1 9 2 (Obj 1%positive) (Obj 3%positive) (Obj 4%positive)
           SpecModel.memory eq_refl eq_refl eq_refl eq_refl eq_refl eq_refl).
Defined.

(** For a code no enumerator has, the two implementations part. *)
Example invalid_code_depends_on_implementation :
  SpecModel.createRenderStates 77 7 0 1 9 2
    (Obj 1%positive) NULL NULL SpecModel.memory
  <> createRenderStates SpecModel.Identity SpecModel.createTransform
       (fun _ => 0) (fun _ => 0) 77 7 0 1 9 2
       (Obj 1%positive) NULL NULL SpecModel.memory.
Proof. vm_compute. discriminate. Qed.
